(** * Torc phase-execution core of poiesis

    A shallow embedding of
      - [src/poiesis/core/services/torc/torc_execution_template.py]
        (class [TorcExecutionTemplate]: [execute], [create_job], [wait], [log]);
      - [src/poiesis/core/services/torc/torc_texam_execution.py]
        (class [TorcTexamExecution]: [__init__], [start_job]).

    A call to a class of the kubernetes client is a record of the keyword
    arguments the call site passes; a keyword that a call site leaves out is
    [None].  The constructor of [V1SecurityContext] is modelled with the
    keywords it has, so a call that passes another keyword raises
    [TypeError] as in Python.  Effects (logger calls, the scheduler call,
    the broker subscription, the task store) are threaded through an
    explicit state with an ordered trace, and Python exceptions are a second
    kind of result. *)

From Stdlib Require Import ZArith String Ascii List Bool Lia.
From stdpp Require Import base option list strings gmap.

Open Scope string_scope.
Open Scope list_scope.
Open Scope Z_scope.

(** ** Python values used by the two files *)

(** Exceptions that the code raises, catches or lets through.  [ValueError]
    carries the literal that [int] could not read. *)
Inductive Exn : Type :=
| ValueError (literal : string)
| TypeError (text : string)
| AttributeError (text : string)
| RuntimeError (text : string)
| ApiException (status : Z) (reason : string)
| OtherException (text : string).

(** [int(s)] on a [str], base 10.  A [string] is read as a sequence of code
    points below 256.  The interpreter strips white space on both sides,
    takes one optional sign, then decimal digits in which single underscores
    may separate digits; more than [int_max_str_digits] digits are refused. *)
Module PyInt.

Definition code (c : ascii) : Z := Z.of_nat (nat_of_ascii c).

Definition is_space (c : ascii) : bool :=
  let n := code c in
  ((9 <=? n) && (n <=? 13)) || (n =? 32) || (n =? 133) || (n =? 160).

Definition digit_of (c : ascii) : option Z :=
  let n := code c in
  if (48 <=? n) && (n <=? 57) then Some (n - 48) else None.

Definition is_underscore (c : ascii) : bool := code c =? 95.

(** Default of [sys.int_max_str_digits]. *)
Definition int_max_str_digits : Z := 4300.

Fixpoint lstrip (l : list ascii) : list ascii :=
  match l with
  | c :: l' => if is_space c then lstrip l' else l
  | [] => []
  end.

(** Called after a digit: reads [(_? digit)*] and returns the value, the
    number of digits read and what is left. *)
Fixpoint scan_digits (acc : Z) (n : Z) (l : list ascii) : Z * Z * list ascii :=
  match l with
  | [] => (acc, n, [])
  | c :: l' =>
      match digit_of c with
      | Some d => scan_digits (10 * acc + d) (n + 1) l'
      | None =>
          if is_underscore c then
            match l' with
            | c2 :: l'' =>
                match digit_of c2 with
                | Some d => scan_digits (10 * acc + d) (n + 1) l''
                | None => (acc, n, l)
                end
            | [] => (acc, n, l)
            end
          else (acc, n, l)
      end
  end.

Definition split_sign (l : list ascii) : Z * list ascii :=
  match l with
  | c :: l' =>
      if code c =? 43 then (1, l')
      else if code c =? 45 then (-1, l')
      else (1, l)
  | [] => (1, [])
  end.

Definition parse (s : string) : option Z :=
  let '(sign, l) := split_sign (lstrip (list_ascii_of_string s)) in
  match l with
  | c :: l' =>
      match digit_of c with
      | Some d =>
          let '(v, n, rest) := scan_digits d 1 l' in
          if forallb is_space rest && (n <=? int_max_str_digits)
          then Some (sign * v) else None
      | None => None
      end
  | [] => None
  end.

End PyInt.

(** Truthiness of a [str] or [None] value ([if x] in Python). *)
Definition truthy_str (v : option string) : bool :=
  match v with
  | None => false
  | Some s => negb (String.eqb s "")
  end.

(** ** Records of the kubernetes client

    One module per class, so that fields keep the client's names. *)

Module V1SeccompProfile.
Record t := { type : option string; localhost_profile : option string }.
End V1SeccompProfile.

Module V1Capabilities.
Record t := { add : option (list string); drop : option (list string) }.
End V1Capabilities.

(** Both call sites build the pod-level and the container-level context with
    the class [V1SecurityContext]; the record has the keywords that either
    of them passes, in the order they are passed.  [keywords] are the
    keywords the constructor of the client's class has:
    [fs_group_change_policy], which the pod-level calls pass, is not one of
    them (it belongs to [V1PodSecurityContext]). *)
Module V1SecurityContext.
Record t := {
  fs_group_change_policy : option string;
  run_as_non_root : option bool;
  seccomp_profile : option V1SeccompProfile.t;
  run_as_user : option Z;
  allow_privilege_escalation : option bool;
  capabilities : option V1Capabilities.t
}.

Definition keywords : list string :=
  ["allow_privilege_escalation"; "app_armor_profile"; "capabilities"; "privileged";
   "proc_mount"; "read_only_root_filesystem"; "run_as_group"; "run_as_non_root";
   "run_as_user"; "se_linux_options"; "seccomp_profile"; "windows_options";
   "local_vars_configuration"].

Definition given {A : Type} (k : string) (v : option A) : list string :=
  match v with
  | Some _ => [k]
  | None => []
  end.

(** The keywords a call passes. *)
Definition passed (c : t) : list string :=
  given "fs_group_change_policy" (fs_group_change_policy c)
  ++ given "run_as_non_root" (run_as_non_root c)
  ++ given "seccomp_profile" (seccomp_profile c)
  ++ given "run_as_user" (run_as_user c)
  ++ given "allow_privilege_escalation" (allow_privilege_escalation c)
  ++ given "capabilities" (capabilities c).

(** The first keyword of the call that the constructor does not have. *)
Definition unexpected (c : t) : option string :=
  head (List.filter (fun k => negb (existsb (String.eqb k) keywords)) (passed c)).
End V1SecurityContext.

Module V1ConfigMapKeySelector.
Record t := { name : option string; key : string; optional : option bool }.
End V1ConfigMapKeySelector.

Module V1EnvVarSource.
Record t := { config_map_key_ref : option V1ConfigMapKeySelector.t }.
End V1EnvVarSource.

Module V1EnvVar.
Record t := {
  name : string;
  value : option string;
  value_from : option V1EnvVarSource.t
}.
End V1EnvVar.

Module V1VolumeMount.
Record t := { name : string; mount_path : string }.
End V1VolumeMount.

Module V1PersistentVolumeClaimVolumeSource.
Record t := { claim_name : string }.
End V1PersistentVolumeClaimVolumeSource.

Module V1Volume.
Record t := {
  name : string;
  persistent_volume_claim : option V1PersistentVolumeClaimVolumeSource.t
}.
End V1Volume.

Module V1Container.
Record t := {
  name : string;
  image : option string;
  command : option (list string);
  args : option (list string);
  env : option (list V1EnvVar.t);
  security_context : option V1SecurityContext.t;
  volume_mounts : option (list V1VolumeMount.t);
  image_pull_policy : option string
}.
End V1Container.

Module V1PodSpec.
Record t := {
  security_context : option V1SecurityContext.t;
  service_account_name : option string;
  containers : list V1Container.t;
  volumes : option (list V1Volume.t);
  restart_policy : option string
}.
End V1PodSpec.

Module V1ObjectMeta.
Record t := { name : option string; labels : option (gmap string string) }.
End V1ObjectMeta.

Module V1PodTemplateSpec.
Record t := { metadata : option V1ObjectMeta.t; spec : option V1PodSpec.t }.
End V1PodTemplateSpec.

Module V1JobSpec.
Record t := {
  backoff_limit : option Z;
  template : V1PodTemplateSpec.t;
  ttl_seconds_after_finished : option Z
}.
End V1JobSpec.

Module V1Job.
Record t := {
  api_version : option string;
  kind : option string;
  metadata : option V1ObjectMeta.t;
  spec : option V1JobSpec.t
}.
End V1Job.

(** ** Collaborators outside the two files *)

(** [poiesis.core.ports.message_broker]: a completion message is a status
    and a text. *)
Module MessageStatus.
Inductive t := OK | ERROR.

Definition eqb (a b : t) : bool :=
  match a, b with
  | OK, OK | ERROR, ERROR => true
  | _, _ => false
  end.

(** [MessageStatus(x)] on a member of the enumeration gives the member. *)
Definition call (x : t) : t := x.
End MessageStatus.

Module Message.
Record t := { status : MessageStatus.t; message : string }.
End Message.

(** [poiesis.api.tes.models.TesTask]: the task's id, and the text that
    [json.dumps(task.model_dump())] gives for it. *)
Module TesTask.
Record t := { id : string; dumps : string }.
End TesTask.

(** [poiesis.core.constants]: the values read through
    [core_constants.K8s] and the five environment groups.  [JOB_TTL] is a
    string that may be absent. *)
Module K8s.
Record t := {
  JOB_TTL : option string;
  BACKOFF_LIMIT : string;
  POIESIS_IMAGE : string;
  CONFIGMAP_NAME : string;
  COMMON_PVC_VOLUME_NAME : string;
  FILER_PVC_PATH : string;
  IMAGE_PULL_POLICY : string;
  PVC_PREFIX : string;
  RESTART_POLICY : string;
  SERVICE_ACCOUNT_NAME : string;
  TEXAM_PREFIX : string;
  TORC_PREFIX : string;
  TIF_PREFIX : string
}.
End K8s.

Module Constants.
Record t := {
  K8s : K8s.t;
  get_message_broker_envs : list V1EnvVar.t;
  get_mongo_envs : list V1EnvVar.t;
  get_s3_envs : list V1EnvVar.t;
  get_secret_names : list V1EnvVar.t;
  get_configmap_names : list V1EnvVar.t
}.
End Constants.

(** Modelled from the spec: the task store client ([MongoDBClient], the
    attribute [db]) is not among the source files.  The spec gives
    [appendSystemLog(identity, [text]) -> ok] and
    [setLogEndTime(identity) -> ok]: both always succeed; the first appends
    the texts to the task's system logs, the second writes an end time. *)
Module MongoDBClient.
Record TaskLog := { system_logs : list string; end_time_writes : nat }.

Definition empty_log : TaskLog :=
  {| system_logs := []; end_time_writes := 0%nat |}.

Definition find (db : gmap string TaskLog) (id : string) : TaskLog :=
  default empty_log (db !! id).

Definition add_tes_task_system_logs
    (id : string) (logs : list string) (db : gmap string TaskLog)
  : gmap string TaskLog :=
  let r := find db id in
  <[ id := {| system_logs := system_logs r ++ logs;
              end_time_writes := end_time_writes r |} ]> db.

Definition add_tes_task_log_end_time
    (id : string) (db : gmap string TaskLog) : gmap string TaskLog :=
  let r := find db id in
  <[ id := {| system_logs := system_logs r;
              end_time_writes := S (end_time_writes r) |} ]> db.
End MongoDBClient.

(** ** State, trace and the monad of the embedding *)

Module logging.
Inductive level := DEBUG | INFO | WARNING | ERROR.
Inductive arg :=
| Str (s : string)
| Job (j : V1Job.t)
| Exc (e : Exn).
End logging.

(** What the code does to the outside, in the order it does it. *)
Inductive Event : Type :=
| Logger (l : logging.level) (a : logging.arg)
| KubernetesCreateJob (job : V1Job.t)
| BrokerSubscribe (channel : string)
| BrokerYield (channel : string) (item : option Message.t)
| DbAddSystemLogs (id : string) (logs : list string)
| DbAddLogEndTime (id : string).

(** The object ([self.id], [self.message]) and the collaborators it holds.
    [self_id = None] is an object on which the attribute [id] was never
    assigned.  [message_broker] maps a channel to what a subscription to it
    yields, in order, before it ends; an item [None] is an empty (falsy)
    item.  A subscription that blocks or raises is not represented, so
    what is proved of [wait] is conditioned on what the subscription
    yields. *)
Record State : Type := mkState {
  self_id : option string;
  self_message : option Message.t;
  message_broker : gmap string (list (option Message.t));
  db : gmap string MongoDBClient.TaskLog;
  trace : list Event
}.

Inductive Result (A : Type) : Type :=
| Return (a : A)
| Raise (e : Exn).
Arguments Return {A} a.
Arguments Raise {A} e.

Definition M (A : Type) : Type := State -> Result A * State.

#[export] Instance M_ret : MRet M := fun A a s => (Return a, s).

#[export] Instance M_bind : MBind M := fun A B f m s =>
  match m s with
  | (Return a, s') => f a s'
  | (Raise e, s') => (Raise e, s')
  end.

Definition raise {A : Type} (e : Exn) : M A := fun s => (Raise e, s).

(** [try: body except <handled> as e: handler e]; [handler e = None] when
    the clause does not match [e]. *)
Definition try_except {A : Type} (body : M A) (handler : Exn -> option (M A)) : M A :=
  fun s =>
    match body s with
    | (Return a, s') => (Return a, s')
    | (Raise e, s') =>
        match handler e with
        | Some h => h s'
        | None => (Raise e, s')
        end
    end.

(** The state after the events [l] happened. *)
Definition add_trace (s : State) (l : list Event) : State :=
  mkState (self_id s) (self_message s) (message_broker s) (db s) (trace s ++ l).

Definition emit (e : Event) : M unit := fun s => (Return tt, add_trace s [e]).

Definition logger (l : logging.level) (a : logging.arg) : M unit :=
  emit (Logger l a).

Definition set_message (m : option Message.t) : M unit := fun s =>
  (Return tt, mkState (self_id s) m (message_broker s) (db s) (trace s)).

Definition get_message : M (option Message.t) := fun s => (Return (self_message s), s).

(** [hasattr(self, "id")] and the read of [self.id]. *)
Definition hasattr_id : M bool := fun s => (Return (bool_decide (is_Some (self_id s))), s).

Definition get_id (cls : string) : M string := fun s =>
  match self_id s with
  | Some i => (Return i, s)
  | None => (Raise (AttributeError ("'" +:+ cls +:+ "' object has no attribute 'id'")), s)
  end.

(** ** The code *)

Definition not_set : string := "The id of the task is not set.".

Definition fatal : string :=
  "Exiting due to error condition in asynchronous function.".

(** [int(v)] as the code calls it on a configuration value. *)
Definition int (v : option string) : M Z :=
  match v with
  | None =>
      raise (TypeError "int() argument must be a string, a bytes-like object or a real number, not 'NoneType'")
  | Some s =>
      match PyInt.parse s with
      | Some n => mret n
      | None => raise (ValueError s)
      end
  end.

(** [f"{v}"] for a [str] or [None]. *)
Definition format (v : option string) : string :=
  match v with
  | Some s => s
  | None => "None"
  end.

(** The text of the [TypeError] for a keyword [k] that
    [V1SecurityContext.__init__] does not have. *)
Definition unexpected_keyword (k : string) : string :=
  "V1SecurityContext.__init__() got an unexpected keyword argument '" +:+ k +:+ "'".

(** The call [V1SecurityContext(...)] with the keywords [c]. *)
Definition V1SecurityContext_init (c : V1SecurityContext.t) : M V1SecurityContext.t :=
  match V1SecurityContext.unexpected c with
  | Some k => raise (TypeError (unexpected_keyword k))
  | None => mret c
  end.

Definition context_init (c : option V1SecurityContext.t) : M unit :=
  match c with
  | Some c => V1SecurityContext_init c ;; mret tt
  | None => mret tt
  end.

Fixpoint containers_init (l : list V1Container.t) : M unit :=
  match l with
  | [] => mret tt
  | k :: l' => context_init (V1Container.security_context k) ;; containers_init l'
  end.

(** Evaluation of a [V1Job(...)] expression whose keyword arguments, down
    to the innermost call, are [j].  Of the constructors called only
    [V1SecurityContext] can refuse its keywords; the pod-level call is
    evaluated before the list of containers. *)
Definition V1Job_init (j : V1Job.t) : M V1Job.t :=
  match V1Job.spec j with
  | Some js =>
      match V1PodTemplateSpec.spec (V1JobSpec.template js) with
      | Some pod =>
          context_init (V1PodSpec.security_context pod) ;;
          containers_init (V1PodSpec.containers pod) ;;
          mret j
      | None => mret j
      end
  | None => mret j
  end.

(** [V1EnvVar(name=n, value_from=V1EnvVarSource(config_map_key_ref=
    V1ConfigMapKeySelector(name=cm, key=n, optional=opt)))]. *)
Definition env_from_configmap (cm n : string) (opt : option bool) : V1EnvVar.t :=
  {| V1EnvVar.name := n;
     V1EnvVar.value := None;
     V1EnvVar.value_from :=
       Some {| V1EnvVarSource.config_map_key_ref :=
                 Some {| V1ConfigMapKeySelector.name := Some cm;
                         V1ConfigMapKeySelector.key := n;
                         V1ConfigMapKeySelector.optional := opt |} |} |}.

Definition env_value (n v : string) : V1EnvVar.t :=
  {| V1EnvVar.name := n; V1EnvVar.value := Some v; V1EnvVar.value_from := None |}.

Section Torc.

(** [core_constants] and the environment groups, and the scheduler: what
    [kubernetes_client.create_job(job)] raises for a job, [None] when it
    accepts it. *)
Variable constants : Constants.t.
Variable cluster : V1Job.t -> option Exn.

Let core := Constants.K8s constants.

(** The block that opens both [create_job] (lines 92-101) and
    [start_job] (lines 75-84), with the same text. *)
Definition job_ttl : M (option Z) :=
  try_except
    (if truthy_str (K8s.JOB_TTL core)
     then n ← int (K8s.JOB_TTL core); mret (Some n)
     else mret None)
    (fun e =>
       match e with
       | ValueError _ | TypeError _ =>
           Some (logger logging.WARNING
                   (logging.Str ("Invalid JOB_TTL " +:+ format (K8s.JOB_TTL core)
                                 +:+ ", falling back to no TTL (None).")) ;;
                 mret None)
       | _ => None
       end).

(** [await self.kubernetes_client.create_job(job)]. *)
Definition kubernetes_client_create_job (job : V1Job.t) : M unit :=
  emit (KubernetesCreateJob job) ;;
  match cluster job with
  | None => mret tt
  | Some e => raise e
  end.

(** The closing block of both [create_job] (lines 173-178) and
    [start_job] (lines 207-212). *)
Definition submit (job : V1Job.t) : M unit :=
  logger logging.DEBUG (logging.Job job) ;;
  try_except
    (kubernetes_client_create_job job)
    (fun e =>
       match e with
       | ApiException _ _ =>
           Some (logger logging.ERROR (logging.Exc e) ;; raise e)
       | _ => None
       end).

(** The keyword arguments of the [V1Job(...)] expression of [create_job] as
    written, once [_ttl] and [int(BACKOFF_LIMIT)] are known.  The expression
    is evaluated by [V1Job_init]. *)
Definition filer_job (_ttl : option Z) (backoff : Z)
    (task_id job_name : string) (commands args : list string)
    (metadata : V1ObjectMeta.t) : V1Job.t :=
  {| V1Job.api_version := Some "batch/v1";
     V1Job.kind := Some "Job";
     V1Job.metadata := Some metadata;
     V1Job.spec := Some
       {| V1JobSpec.backoff_limit := Some backoff;
          V1JobSpec.template :=
            {| V1PodTemplateSpec.metadata := None;
               V1PodTemplateSpec.spec := Some
                 {| V1PodSpec.security_context := Some
                      {| V1SecurityContext.fs_group_change_policy := Some "OnRootMismatch";
                         V1SecurityContext.run_as_non_root := Some true;
                         V1SecurityContext.seccomp_profile := Some
                           {| V1SeccompProfile.type := Some "RuntimeDefault";
                              V1SeccompProfile.localhost_profile := None |};
                         V1SecurityContext.run_as_user := None;
                         V1SecurityContext.allow_privilege_escalation := None;
                         V1SecurityContext.capabilities := None |};
                    V1PodSpec.service_account_name := None;
                    V1PodSpec.containers :=
                      [ {| V1Container.name := job_name;
                           V1Container.image := Some (K8s.POIESIS_IMAGE core);
                           V1Container.command := Some commands;
                           V1Container.args := Some args;
                           V1Container.env := Some
                             (Constants.get_message_broker_envs constants
                              ++ Constants.get_mongo_envs constants
                              ++ Constants.get_s3_envs constants
                              ++ Constants.get_secret_names constants
                              ++ Constants.get_configmap_names constants
                              ++ [ env_value "POIESIS_IMAGE" (K8s.POIESIS_IMAGE core);
                                   env_from_configmap (K8s.CONFIGMAP_NAME core)
                                     "LOG_LEVEL" None ]);
                           V1Container.security_context := Some
                             {| V1SecurityContext.fs_group_change_policy := None;
                                V1SecurityContext.run_as_non_root := None;
                                V1SecurityContext.seccomp_profile := None;
                                V1SecurityContext.run_as_user := Some 1000;
                                V1SecurityContext.allow_privilege_escalation := Some false;
                                V1SecurityContext.capabilities := Some
                                  {| V1Capabilities.add := None;
                                     V1Capabilities.drop := Some ["ALL"] |} |};
                           V1Container.volume_mounts := Some
                             [ {| V1VolumeMount.name := K8s.COMMON_PVC_VOLUME_NAME core;
                                  V1VolumeMount.mount_path := K8s.FILER_PVC_PATH core |} ];
                           V1Container.image_pull_policy :=
                             Some (K8s.IMAGE_PULL_POLICY core) |} ];
                    V1PodSpec.volumes := Some
                      [ {| V1Volume.name := K8s.COMMON_PVC_VOLUME_NAME core;
                           V1Volume.persistent_volume_claim := Some
                             {| V1PersistentVolumeClaimVolumeSource.claim_name :=
                                  K8s.PVC_PREFIX core +:+ "-" +:+ task_id |} |} ];
                    V1PodSpec.restart_policy := Some (K8s.RESTART_POLICY core) |} |};
          V1JobSpec.ttl_seconds_after_finished := _ttl |} |}.

(** [TorcExecutionTemplate.create_job]. *)
Definition create_job (task_id job_name : string) (commands args : list string)
    (metadata : V1ObjectMeta.t) : M unit :=
  _ttl ← job_ttl;
  backoff ← int (Some (K8s.BACKOFF_LIMIT core));
  job ← V1Job_init (filer_job _ttl backoff task_id job_name commands args metadata);
  submit job.

(** The keyword arguments of the [V1Job(...)] expression of
    [TorcTexamExecution.start_job] as written.  The expression is evaluated
    by [V1Job_init]. *)
Definition texam_job (_ttl : option Z) (id task : string) : V1Job.t :=
  let texam_name := K8s.TEXAM_PREFIX core +:+ "-" +:+ id in
  let cm := K8s.CONFIGMAP_NAME core in
  {| V1Job.api_version := Some "batch/v1";
     V1Job.kind := Some "Job";
     V1Job.metadata := Some
       {| V1ObjectMeta.name := Some texam_name;
          V1ObjectMeta.labels := Some
            (<[ "name" := texam_name ]>
               (<[ "parent" := K8s.TORC_PREFIX core +:+ "-" +:+ id ]>
                  (<[ "service" := K8s.TEXAM_PREFIX core ]> ∅))) |};
     V1Job.spec := Some
       {| V1JobSpec.backoff_limit := None;
          V1JobSpec.template :=
            {| V1PodTemplateSpec.metadata := None;
               V1PodTemplateSpec.spec := Some
                 {| V1PodSpec.security_context := Some
                      {| V1SecurityContext.fs_group_change_policy := Some "OnRootMismatch";
                         V1SecurityContext.run_as_non_root := Some true;
                         V1SecurityContext.seccomp_profile := Some
                           {| V1SeccompProfile.type := Some "RuntimeDefault";
                              V1SeccompProfile.localhost_profile := None |};
                         V1SecurityContext.run_as_user := None;
                         V1SecurityContext.allow_privilege_escalation := None;
                         V1SecurityContext.capabilities := None |};
                    V1PodSpec.service_account_name :=
                      Some (K8s.SERVICE_ACCOUNT_NAME core);
                    V1PodSpec.containers :=
                      [ {| V1Container.name := K8s.TIF_PREFIX core;
                           V1Container.image := Some (K8s.POIESIS_IMAGE core);
                           V1Container.command := Some ["poiesis"; "texam"; "run"];
                           V1Container.args := Some ["--task"; task];
                           V1Container.env := Some
                             (Constants.get_mongo_envs constants
                              ++ Constants.get_message_broker_envs constants
                              ++ Constants.get_secret_names constants
                              ++ Constants.get_configmap_names constants
                              ++ [ env_value "POIESIS_IMAGE" (K8s.POIESIS_IMAGE core);
                                   env_from_configmap cm "LOG_LEVEL" None;
                                   env_from_configmap cm "MONITOR_TIMEOUT_SECONDS" (Some true);
                                   env_from_configmap cm "POIESIS_K8S_NAMESPACE" None;
                                   env_from_configmap cm "POIESIS_SERVICE_ACCOUNT_NAME" None;
                                   env_from_configmap cm "POIESIS_RESTART_POLICY" None;
                                   env_from_configmap cm "POIESIS_IMAGE_PULL_POLICY" None;
                                   env_from_configmap cm "POIESIS_JOB_TTL" None ]);
                           V1Container.security_context := Some
                             {| V1SecurityContext.fs_group_change_policy := None;
                                V1SecurityContext.run_as_non_root := None;
                                V1SecurityContext.seccomp_profile := None;
                                V1SecurityContext.run_as_user := Some 1000;
                                V1SecurityContext.allow_privilege_escalation := Some false;
                                V1SecurityContext.capabilities := Some
                                  {| V1Capabilities.add := None;
                                     V1Capabilities.drop := Some ["ALL"] |} |};
                           V1Container.volume_mounts := None;
                           V1Container.image_pull_policy :=
                             Some (K8s.IMAGE_PULL_POLICY core) |} ];
                    V1PodSpec.volumes := None;
                    V1PodSpec.restart_policy := Some (K8s.RESTART_POLICY core) |} |};
          V1JobSpec.ttl_seconds_after_finished := _ttl |} |}.

(** [TorcTexamExecution.__init__]: [self.id = task.id], and the
    template's [self.message = None]; the collaborators are given. *)
Definition init (task : TesTask.t)
    (broker : gmap string (list (option Message.t)))
    (store : gmap string MongoDBClient.TaskLog) : State :=
  mkState (Some (TesTask.id task)) None broker store [].

(** [TorcTexamExecution.start_job]; [task] is [self.task]. *)
Definition start_job (task : TesTask.t) : M unit :=
  id ← get_id "TorcTexamExecution";
  _ttl ← job_ttl;
  job ← V1Job_init (texam_job _ttl id (TesTask.dumps task));
  submit job.

(** One turn of the [for] loop of [wait] on the item the subscription
    yields next, [rest] being what it yields afterwards. *)
Definition broker_next (channel : string) (item : option Message.t)
    (rest : list (option Message.t)) : M unit := fun s =>
  (Return tt,
   mkState (self_id s) (self_message s)
     (<[ channel := rest ]> (message_broker s)) (db s)
     (trace s ++ [BrokerYield channel item])).

Fixpoint wait_loop (channel : string) (items : list (option Message.t)) : M unit :=
  match items with
  | [] => mret tt
  | item :: rest =>
      broker_next channel item rest ;;
      match item with
      | Some message =>
          (if MessageStatus.eqb (Message.status message) MessageStatus.ERROR
           then logger logging.ERROR (logging.Str (Message.message message))
           else mret tt) ;;
          set_message (Some message)
      | None => wait_loop channel rest
      end
  end.

Definition subscribe (channel : string) : M (list (option Message.t)) := fun s =>
  (Return (default [] (message_broker s !! channel)),
   mkState (self_id s) (self_message s) (message_broker s) (db s)
     (trace s ++ [BrokerSubscribe channel])).

(** [TorcExecutionTemplate.wait]. *)
Definition wait : M unit :=
  has ← hasattr_id;
  if negb has then raise (AttributeError not_set)
  else
    id ← get_id "TorcExecutionTemplate";
    items ← subscribe id;
    wait_loop id items.

Definition db_add_tes_task_system_logs (id : string) (logs : list string) : M unit :=
  fun s =>
    (Return tt,
     mkState (self_id s) (self_message s) (message_broker s)
       (MongoDBClient.add_tes_task_system_logs id logs (db s))
       (trace s ++ [DbAddSystemLogs id logs])).

Definition db_add_tes_task_log_end_time (id : string) : M unit :=
  fun s =>
    (Return tt,
     mkState (self_id s) (self_message s) (message_broker s)
       (MongoDBClient.add_tes_task_log_end_time id (db s))
       (trace s ++ [DbAddLogEndTime id])).

(** [TorcExecutionTemplate.log]. *)
Definition log : M unit :=
  has ← hasattr_id;
  if negb has then raise (AttributeError not_set)
  else
    m ← get_message;
    match m with
    | Some message =>
        if MessageStatus.eqb (MessageStatus.call (Message.status message))
             MessageStatus.ERROR
        then
          logger logging.ERROR (logging.Str (Message.message message)) ;;
          id ← get_id "TorcExecutionTemplate";
          db_add_tes_task_system_logs id [Message.message message] ;;
          db_add_tes_task_log_end_time id ;;
          raise (RuntimeError fatal)
        else logger logging.INFO (logging.Str (Message.message message))
    | None => mret tt
    end.

(** [TorcExecutionTemplate.execute], for the variant's [start_job]. *)
Definition execute (start_job : M unit) : M unit :=
  start_job ;; wait ;; log.

End Torc.


(** ** Observations used in the statements *)

(** The events a computation adds to the trace of the state it starts in. *)
Definition effects {A : Type} (m : M A) (s : State) : list Event :=
  drop (length (trace s)) (trace (m s).2).

Definition submitted_job (e : Event) : option V1Job.t :=
  match e with
  | KubernetesCreateJob j => Some j
  | _ => None
  end.

(** The jobs handed to the scheduler by a computation, in order. *)
Definition submitted {A : Type} (m : M A) (s : State) : list V1Job.t :=
  omap submitted_job (effects m s).


Definition is_store_write (e : Event) : bool :=
  match e with
  | DbAddSystemLogs _ _ | DbAddLogEndTime _ => true
  | _ => false
  end.

(** The calls to the task store among some events. *)
Definition store_writes (l : list Event) : list Event :=
  filter (fun e => is_store_write e = true) l.


(** The pod-level posture: change policy, non-root, seccomp profile, and
    nothing else set. *)
Definition pod_posture (c : V1SecurityContext.t) : bool :=
  bool_decide (V1SecurityContext.fs_group_change_policy c = Some "OnRootMismatch")
  && bool_decide (V1SecurityContext.run_as_non_root c = Some true)
  && match V1SecurityContext.seccomp_profile c with
     | Some p =>
         bool_decide (V1SeccompProfile.type p = Some "RuntimeDefault")
         && bool_decide (V1SeccompProfile.localhost_profile p = None)
     | None => false
     end
  && bool_decide (V1SecurityContext.run_as_user c = None)
  && bool_decide (V1SecurityContext.allow_privilege_escalation c = None)
  && match V1SecurityContext.capabilities c with None => true | Some _ => false end.

(** The container-level posture: user 1000, no privilege escalation, all
    capabilities dropped, and nothing else set. *)
Definition container_posture (c : V1SecurityContext.t) : bool :=
  bool_decide (V1SecurityContext.run_as_user c = Some 1000)
  && bool_decide (V1SecurityContext.allow_privilege_escalation c = Some false)
  && match V1SecurityContext.capabilities c with
     | Some k =>
         bool_decide (V1Capabilities.drop k = Some ["ALL"])
         && bool_decide (V1Capabilities.add k = None)
     | None => false
     end
  && bool_decide (V1SecurityContext.fs_group_change_policy c = None)
  && bool_decide (V1SecurityContext.run_as_non_root c = None)
  && match V1SecurityContext.seccomp_profile c with None => true | Some _ => false end.

Definition pod_of (j : V1Job.t) : option V1PodSpec.t :=
  js ← V1Job.spec j; V1PodTemplateSpec.spec (V1JobSpec.template js).

(** A job with a pod whose context and whose containers' contexts are the
    two postures; the pod has at least one container. *)
Definition hardened (j : V1Job.t) : bool :=
  match pod_of j with
  | Some pod =>
      match V1PodSpec.security_context pod with
      | Some c => pod_posture c
      | None => false
      end
      && negb (bool_decide (length (V1PodSpec.containers pod) = 0%nat))
      && forallb (fun k =>
                    match V1Container.security_context k with
                    | Some c => container_posture c
                    | None => false
                    end) (V1PodSpec.containers pod)
  | None => false
  end.

(** The TTL the opening block leaves in [_ttl], and whether it warns. *)
Definition ttl_of (v : option string) : option Z :=
  match v with
  | Some s => if String.eqb s "" then None else PyInt.parse s
  | None => None
  end.

Definition invalid_ttl (v : string) : Event :=
  Logger logging.WARNING
    (logging.Str ("Invalid JOB_TTL " +:+ v +:+ ", falling back to no TTL (None).")).

(** One warning for a text that is not empty and does not read as an
    integer, none otherwise. *)
Definition ttl_warning (v : option string) : list Event :=
  match v with
  | Some s =>
      if String.eqb s "" then []
      else match PyInt.parse s with
           | Some _ => []
           | None => [invalid_ttl s]
           end
  | None => []
  end.

(** What [submit] adds to the trace, and how it ends. *)
Definition submit_events (cluster : V1Job.t -> option Exn) (j : V1Job.t) : list Event :=
  [Logger logging.DEBUG (logging.Job j); KubernetesCreateJob j]
  ++ match cluster j with
     | Some (ApiException st r) => [Logger logging.ERROR (logging.Exc (ApiException st r))]
     | _ => []
     end.

Definition submit_result (cluster : V1Job.t -> option Exn) (j : V1Job.t) : Result unit :=
  match cluster j with
  | None => Return tt
  | Some e => Raise e
  end.

(** Splitting what a subscription yields at its first non-empty item. *)
Fixpoint first_message (items : list (option Message.t))
  : list (option Message.t) * option (Message.t * list (option Message.t)) :=
  match items with
  | [] => ([], None)
  | Some m :: rest => ([], Some (m, rest))
  | None :: rest =>
      let '(skipped, found) := first_message rest in (None :: skipped, found)
  end.


Definition backoff_limit_field (j : V1Job.t) : option Z :=
  js ← V1Job.spec j; V1JobSpec.backoff_limit js.

Definition restart_policy_field (j : V1Job.t) : option string :=
  pod ← pod_of j; V1PodSpec.restart_policy pod.

Definition job_name (j : V1Job.t) : option string :=
  m ← V1Job.metadata j; V1ObjectMeta.name m.

Definition job_label (k : string) (j : V1Job.t) : option string :=
  m ← V1Job.metadata j; l ← V1ObjectMeta.labels m; l !! k.

Definition container_names (j : V1Job.t) : list string :=
  match pod_of j with
  | Some pod => map V1Container.name (V1PodSpec.containers pod)
  | None => []
  end.

Definition is_message_yield (e : Event) : bool :=
  match e with
  | BrokerYield _ (Some _) => true
  | _ => false
  end.

(** What [wait] adds to the trace on channel [i] when the subscription
    yields [items]. *)
Definition wait_events (i : string) (items : list (option Message.t)) : list Event :=
  let '(skipped, found) := first_message items in
  BrokerSubscribe i :: map (BrokerYield i) skipped
  ++ match found with
     | Some (m, _) =>
         BrokerYield i (Some m)
         :: (if MessageStatus.eqb (Message.status m) MessageStatus.ERROR
             then [Logger logging.ERROR (logging.Str (Message.message m))]
             else [])
     | None => []
     end.

(** ** Concrete inputs *)

Definition K0 : K8s.t :=
  {| K8s.JOB_TTL := Some "3600";
     K8s.BACKOFF_LIMIT := "1";
     K8s.POIESIS_IMAGE := "docker.io/jaeaeich/poiesis:latest";
     K8s.CONFIGMAP_NAME := "poiesis-core-configmap";
     K8s.COMMON_PVC_VOLUME_NAME := "task-pvc-volume";
     K8s.FILER_PVC_PATH := "/transfer";
     K8s.IMAGE_PULL_POLICY := "IfNotPresent";
     K8s.PVC_PREFIX := "pvc";
     K8s.RESTART_POLICY := "Never";
     K8s.SERVICE_ACCOUNT_NAME := "poiesis-sa";
     K8s.TEXAM_PREFIX := "texam";
     K8s.TORC_PREFIX := "torc";
     K8s.TIF_PREFIX := "tif" |}.

Definition with_ttl (v : option string) (k : K8s.t) : K8s.t :=
  {| K8s.JOB_TTL := v;
     K8s.BACKOFF_LIMIT := K8s.BACKOFF_LIMIT k;
     K8s.POIESIS_IMAGE := K8s.POIESIS_IMAGE k;
     K8s.CONFIGMAP_NAME := K8s.CONFIGMAP_NAME k;
     K8s.COMMON_PVC_VOLUME_NAME := K8s.COMMON_PVC_VOLUME_NAME k;
     K8s.FILER_PVC_PATH := K8s.FILER_PVC_PATH k;
     K8s.IMAGE_PULL_POLICY := K8s.IMAGE_PULL_POLICY k;
     K8s.PVC_PREFIX := K8s.PVC_PREFIX k;
     K8s.RESTART_POLICY := K8s.RESTART_POLICY k;
     K8s.SERVICE_ACCOUNT_NAME := K8s.SERVICE_ACCOUNT_NAME k;
     K8s.TEXAM_PREFIX := K8s.TEXAM_PREFIX k;
     K8s.TORC_PREFIX := K8s.TORC_PREFIX k;
     K8s.TIF_PREFIX := K8s.TIF_PREFIX k |}.

Definition constants_of (k : K8s.t) : Constants.t :=
  {| Constants.K8s := k;
     Constants.get_message_broker_envs := [env_value "MESSAGE_BROKER_HOST" "redis"];
     Constants.get_mongo_envs := [env_value "MONGODB_HOST" "mongodb"];
     Constants.get_s3_envs := [env_value "S3_URL" "http://minio:9000"];
     Constants.get_secret_names := [env_value "POIESIS_MONGO_SECRET_NAME" "mongo-secret"];
     Constants.get_configmap_names := [env_value "POIESIS_CORE_CONFIGMAP_NAME" "poiesis-core-configmap"] |}.

Definition C0 : Constants.t := constants_of K0.

Definition accepting : V1Job.t -> option Exn := fun _ => None.

Definition conflict : Exn := ApiException 409 "Conflict".

Definition rejecting : V1Job.t -> option Exn := fun _ => Some conflict.

Definition task0 : TesTask.t := {| TesTask.id := "t1"; TesTask.dumps := "{}" |}.

Definition meta0 : V1ObjectMeta.t :=
  {| V1ObjectMeta.name := Some "tif-t1"; V1ObjectMeta.labels := None |}.

Definition disk_full : Message.t :=
  {| Message.status := MessageStatus.ERROR; Message.message := "disk full" |}.

Definition done_ok : Message.t :=
  {| Message.status := MessageStatus.OK; Message.message := "done" |}.

(** An object with [id = "t1"] that has received nothing yet. *)
Definition fresh : State := init task0 ∅ ∅.

(** The same object after it received [m]. *)
Definition received (m : Message.t) : State :=
  mkState (Some "t1") (Some m) ∅ ∅ [].

(** An object on which [id] was never assigned; the channel would yield a
    message if anything subscribed to it. *)
Definition no_id : State :=
  mkState None (Some disk_full) {[ "t1" := [Some disk_full] ]} ∅ [].


(** ** Further observations *)

Definition containers_of (j : V1Job.t) : list V1Container.t :=
  match pod_of j with
  | Some pod => V1PodSpec.containers pod
  | None => []
  end.

Definition env_of (c : V1Container.t) : list V1EnvVar.t :=
  default [] (V1Container.env c).





(** The persistent volume claims the job's pod refers to. *)
Definition claim_names (j : V1Job.t) : list string :=
  match pod_of j with
  | Some pod =>
      omap (fun v => V1PersistentVolumeClaimVolumeSource.claim_name
                       <$> V1Volume.persistent_volume_claim v)
        (default [] (V1PodSpec.volumes pod))
  | None => []
  end.

(** A variable whose value is read from key [n] of the config map [cm],
    [n] being the variable's own name. *)
Definition from_configmap (cm : string) (e : V1EnvVar.t) : bool :=
  match V1EnvVar.value e, V1EnvVar.value_from e with
  | None, Some src =>
      match V1EnvVarSource.config_map_key_ref src with
      | Some sel =>
          bool_decide (V1ConfigMapKeySelector.name sel = Some cm)
          && String.eqb (V1ConfigMapKeySelector.key sel) (V1EnvVar.name e)
      | None => false
      end
  | _, _ => false
  end.

Definition is_api_exception (e : Exn) : bool :=
  match e with
  | ApiException _ _ => true
  | _ => false
  end.

Definition is_error_log (e : Event) : bool :=
  match e with
  | Logger logging.ERROR _ => true
  | _ => false
  end.

Definition error_logs (l : list Event) : list Event :=
  filter (fun e => is_error_log e = true) l.

Definition is_broker_event (e : Event) : bool :=
  match e with
  | BrokerSubscribe _ | BrokerYield _ _ => true
  | _ => false
  end.

Definition broker_events (l : list Event) : list Event :=
  filter (fun e => is_broker_event e = true) l.

(** The items pulled from a subscription among some events, in order. *)
Definition yielded (l : list Event) : list (option Message.t) :=
  omap (fun e => match e with BrokerYield _ item => Some item | _ => None end) l.

(** What is left of channel [i]. *)
Definition pending (s : State) (i : string) : list (option Message.t) :=
  default [] (message_broker s !! i).

(** Further concrete inputs. *)
Definition with_backoff (b : string) (k : K8s.t) : K8s.t :=
  {| K8s.JOB_TTL := K8s.JOB_TTL k;
     K8s.BACKOFF_LIMIT := b;
     K8s.POIESIS_IMAGE := K8s.POIESIS_IMAGE k;
     K8s.CONFIGMAP_NAME := K8s.CONFIGMAP_NAME k;
     K8s.COMMON_PVC_VOLUME_NAME := K8s.COMMON_PVC_VOLUME_NAME k;
     K8s.FILER_PVC_PATH := K8s.FILER_PVC_PATH k;
     K8s.IMAGE_PULL_POLICY := K8s.IMAGE_PULL_POLICY k;
     K8s.PVC_PREFIX := K8s.PVC_PREFIX k;
     K8s.RESTART_POLICY := K8s.RESTART_POLICY k;
     K8s.SERVICE_ACCOUNT_NAME := K8s.SERVICE_ACCOUNT_NAME k;
     K8s.TEXAM_PREFIX := K8s.TEXAM_PREFIX k;
     K8s.TORC_PREFIX := K8s.TORC_PREFIX k;
     K8s.TIF_PREFIX := K8s.TIF_PREFIX k |}.

Definition unreachable : Exn := OtherException "connection refused".

(** A job whose expression calls no [V1SecurityContext]. *)
Definition bare_job : V1Job.t :=
  {| V1Job.api_version := Some "batch/v1"; V1Job.kind := Some "Job";
     V1Job.metadata := Some meta0; V1Job.spec := None |}.

(** The error of the pod-level call in both files. *)
Definition pod_context_error : Exn :=
  TypeError (unexpected_keyword "fs_group_change_policy").

Definition failing : V1Job.t -> option Exn := fun _ => Some unreachable.

(** An object with [id = "t1"] whose channel holds [items]. *)
Definition listening (items : list (option Message.t)) : State :=
  mkState (Some "t1") None {[ "t1" := items ]} ∅ [].

(** ** Equations of the monad and of the trace *)

Lemma bind_run {A B : Type} (m : M A) (f : A -> M B) (s : State) :
  (m ≫= f) s =
  match m s with
  | (Return a, s') => f a s'
  | (Raise e, s') => (Raise e, s')
  end.
Proof. reflexivity. Qed.

Lemma add_trace_nil (s : State) : add_trace s [] = s.
Proof. destruct s; unfold add_trace; simpl. by rewrite app_nil_r. Qed.

Lemma add_trace_app (s : State) (l1 l2 : list Event) :
  add_trace (add_trace s l1) l2 = add_trace s (l1 ++ l2).
Proof. unfold add_trace; simpl. by rewrite app_assoc. Qed.

Lemma effects_add_trace {A : Type} (m : M A) (s : State) (r : Result A) (l : list Event) :
  m s = (r, add_trace s l) -> effects m s = l.
Proof.
  intros H. unfold effects. rewrite H. simpl.
  by rewrite drop_app_length.
Qed.

(** ** Runs of the building blocks *)

Section Runs.

Variable constants : Constants.t.
Variable cluster : V1Job.t -> option Exn.

Let ttl := K8s.JOB_TTL (Constants.K8s constants).

Lemma job_ttl_run (s : State) :
  job_ttl constants s = (Return (ttl_of ttl), add_trace s (ttl_warning ttl)).
Proof.
  unfold job_ttl, try_except, ttl_of, ttl_warning, ttl.
  destruct (K8s.JOB_TTL (Constants.K8s constants)) as [v|]; simpl.
  - destruct (String.eqb v ""); simpl.
    + by rewrite add_trace_nil.
    + rewrite bind_run. unfold int.
      destruct (PyInt.parse v) as [n|]; simpl.
      * by rewrite add_trace_nil.
      * reflexivity.
  - by rewrite add_trace_nil.
Qed.

Lemma submit_run (j : V1Job.t) (s : State) :
  submit cluster j s = (submit_result cluster j, add_trace s (submit_events cluster j)).
Proof.
  unfold submit, submit_result, submit_events, try_except,
    kubernetes_client_create_job, logger, emit.
  rewrite bind_run. simpl. rewrite bind_run. simpl.
  destruct (cluster j) as [[]|]; simpl; rewrite ?bind_run; simpl;
    by rewrite ?add_trace_app.
Qed.

(** Both [V1Job(...)] expressions stop at their pod-level
    [V1SecurityContext(...)] call. *)
Lemma filer_job_init (_ttl : option Z) (b : Z) (task_id job_name : string)
    (commands args : list string) (metadata : V1ObjectMeta.t) (s : State) :
  V1Job_init (filer_job constants _ttl b task_id job_name commands args metadata) s
  = (Raise pod_context_error, s).
Proof. reflexivity. Qed.

Lemma texam_job_init (_ttl : option Z) (i task : string) (s : State) :
  V1Job_init (texam_job constants _ttl i task) s = (Raise pod_context_error, s).
Proof. reflexivity. Qed.

Lemma create_job_run (task_id job_name : string) (commands args : list string)
    (metadata : V1ObjectMeta.t) (s : State) :
  create_job constants cluster task_id job_name commands args metadata s =
  (match PyInt.parse (K8s.BACKOFF_LIMIT (Constants.K8s constants)) with
   | Some _ => Raise pod_context_error
   | None => Raise (ValueError (K8s.BACKOFF_LIMIT (Constants.K8s constants)))
   end,
   add_trace s (ttl_warning ttl)).
Proof.
  unfold create_job. rewrite bind_run, job_ttl_run. fold ttl.
  rewrite bind_run. unfold int.
  destruct (PyInt.parse _) as [b|]; simpl; [|reflexivity].
  by rewrite bind_run, filer_job_init.
Qed.

Lemma start_job_run (task : TesTask.t) (s : State) :
  start_job constants cluster task s =
  match self_id s with
  | Some i => (Raise pod_context_error, add_trace s (ttl_warning ttl))
  | None =>
      (Raise (AttributeError "'TorcTexamExecution' object has no attribute 'id'"), s)
  end.
Proof.
  unfold start_job. rewrite bind_run. unfold get_id.
  destruct (self_id s) as [i|] eqn:Hid; [|reflexivity].
  rewrite bind_run, job_ttl_run. fold ttl.
  by rewrite bind_run, texam_job_init.
Qed.

End Runs.

Lemma wait_loop_run (i : string) (items : list (option Message.t)) (s : State) :
  wait_loop i items s =
  (Return tt,
   let '(skipped, found) := first_message items in
   mkState (self_id s)
     (match found with Some (m, _) => Some m | None => self_message s end)
     (match items with
      | [] => message_broker s
      | _ :: _ =>
          <[ i := match found with Some (_, rest) => rest | None => [] end ]>
            (message_broker s)
      end)
     (db s)
     (trace s ++ map (BrokerYield i) skipped
      ++ match found with
         | Some (m, _) =>
             BrokerYield i (Some m)
             :: (if MessageStatus.eqb (Message.status m) MessageStatus.ERROR
                 then [Logger logging.ERROR (logging.Str (Message.message m))]
                 else [])
         | None => []
         end)).
Proof.
  revert s. induction items as [|[m|] rest IH]; intros s.
  - simpl. destruct s; simpl. by rewrite app_nil_r.
  - simpl. rewrite bind_run. unfold broker_next. rewrite bind_run.
    destruct (MessageStatus.eqb (Message.status m) MessageStatus.ERROR);
      simpl; unfold set_message, add_trace; simpl; by rewrite <- ?app_assoc.
  - cbn [wait_loop]. rewrite bind_run. unfold broker_next at 1.
    rewrite IH. cbn [first_message].
    destruct rest as [|x rest'].
    + simpl. by rewrite <- app_assoc.
    + remember (first_message (x :: rest')) as fm eqn:Hfm.
      destruct fm as [skipped found]. simpl.
      by rewrite insert_insert_eq, <- app_assoc.
Qed.

Lemma first_message_skip (n : nat) (m : Message.t) (rest : list (option Message.t)) :
  first_message (replicate n None ++ Some m :: rest) = (replicate n None, Some (m, rest)).
Proof. induction n as [|n IH]; simpl; [reflexivity|]. by rewrite IH. Qed.

Lemma wait_run (s : State) :
  wait s =
  match self_id s with
  | None => (Raise (AttributeError not_set), s)
  | Some i =>
      wait_loop i (default [] (message_broker s !! i)) (add_trace s [BrokerSubscribe i])
  end.
Proof.
  unfold wait. rewrite bind_run. unfold hasattr_id.
  destruct (self_id s) as [i|] eqn:Hid; simpl.
  - rewrite bind_run. unfold get_id. rewrite Hid. rewrite bind_run. reflexivity.
  - reflexivity.
Qed.

Lemma log_run (s : State) :
  log s =
  match self_id s with
  | None => (Raise (AttributeError not_set), s)
  | Some i =>
      match self_message s with
      | None => (Return tt, s)
      | Some m =>
          match Message.status m with
          | MessageStatus.ERROR =>
              (Raise (RuntimeError fatal),
               mkState (self_id s) (self_message s) (message_broker s)
                 (MongoDBClient.add_tes_task_log_end_time i
                    (MongoDBClient.add_tes_task_system_logs i [Message.message m] (db s)))
                 (trace s ++ [Logger logging.ERROR (logging.Str (Message.message m));
                              DbAddSystemLogs i [Message.message m];
                              DbAddLogEndTime i]))
          | MessageStatus.OK =>
              (Return tt, add_trace s [Logger logging.INFO (logging.Str (Message.message m))])
          end
      end
  end.
Proof.
  unfold log. rewrite bind_run. unfold hasattr_id.
  destruct (self_id s) as [i|] eqn:Hid; simpl; [|reflexivity].
  rewrite bind_run. unfold get_message.
  destruct (self_message s) as [m|] eqn:Hm; [|reflexivity].
  unfold MessageStatus.call.
  destruct (Message.status m); simpl; [reflexivity|].
  rewrite bind_run. unfold logger, emit. rewrite bind_run.
  unfold get_id. simpl. rewrite Hid. rewrite bind_run.
  unfold db_add_tes_task_system_logs. rewrite bind_run.
  unfold db_add_tes_task_log_end_time, raise. simpl.
  rewrite Hid, Hm. by rewrite <- !app_assoc.
Qed.

Lemma execute_run (hook : M unit) (s : State) :
  execute hook s =
  match hook s with
  | (Raise e, s1) => (Raise e, s1)
  | (Return _, s1) =>
      match wait s1 with
      | (Raise e, s2) => (Raise e, s2)
      | (Return _, s2) => log s2
      end
  end.
Proof.
  unfold execute. rewrite bind_run.
  destruct (hook s) as [[u|e] s1]; [|reflexivity].
  rewrite bind_run. by destruct (wait s1) as [[u'|e] s2].
Qed.

(** ** What the two submitting operations do *)

Section Submission.

Variable constants : Constants.t.
Variable cluster : V1Job.t -> option Exn.

Let ttl := K8s.JOB_TTL (Constants.K8s constants).

Lemma submitted_ttl_warning (v : option string) :
  omap submitted_job (ttl_warning v) = [].
Proof.
  destruct v as [v|]; simpl; [|reflexivity].
  destruct (String.eqb v ""); [reflexivity|].
  by destruct (PyInt.parse v).
Qed.

Lemma create_job_effects (task_id job_name : string) (commands args : list string)
    (metadata : V1ObjectMeta.t) (s : State) :
  effects (create_job constants cluster task_id job_name commands args metadata) s =
  ttl_warning ttl.
Proof.
  eapply effects_add_trace. apply create_job_run.
Qed.

Lemma start_job_effects (task : TesTask.t) (s : State) :
  effects (start_job constants cluster task) s =
  match self_id s with
  | Some i => ttl_warning ttl
  | None => []
  end.
Proof.
  pose proof (start_job_run constants cluster task s) as H.
  destruct (self_id s).
  - eapply effects_add_trace; exact H.
  - eapply effects_add_trace. rewrite H. by rewrite add_trace_nil.
Qed.

Lemma create_job_submitted (task_id job_name : string) (commands args : list string)
    (metadata : V1ObjectMeta.t) (s : State) :
  submitted (create_job constants cluster task_id job_name commands args metadata) s = [].
Proof.
  unfold submitted. rewrite create_job_effects. apply submitted_ttl_warning.
Qed.

Lemma start_job_submitted (task : TesTask.t) (s : State) :
  submitted (start_job constants cluster task) s = [].
Proof.
  unfold submitted. rewrite start_job_effects.
  destruct (self_id s); [apply submitted_ttl_warning|reflexivity].
Qed.

End Submission.

Lemma filer_job_hardened (constants : Constants.t) (_ttl : option Z) (b : Z)
    (task_id job_name : string) (commands args : list string) (metadata : V1ObjectMeta.t) :
  hardened (filer_job constants _ttl b task_id job_name commands args metadata) = true.
Proof. reflexivity. Qed.

Lemma texam_job_hardened (constants : Constants.t) (_ttl : option Z) (i task : string) :
  hardened (texam_job constants _ttl i task) = true.
Proof. reflexivity. Qed.

(** C1. The keyword arguments written in [create_job] and in [start_job]
    spell the posture out (pod: change policy "OnRootMismatch", non-root,
    seccomp "RuntimeDefault"; container: user 1000, no privilege escalation,
    capabilities dropped ["ALL"]), but the pod-level ones are passed to
    [V1SecurityContext], whose constructor has no keyword
    [fs_group_change_policy]: the container-level call is accepted, the
    pod-level call raises [TypeError].  So [start_job] on an object with an
    id, and [create_job] whenever the backoff limit reads as an integer,
    raise that [TypeError] right after the TTL block, and neither ever hands
    a job to the scheduler: no submitted job carries the posture. *)
Theorem job_construction_raises (constants : Constants.t) (cluster : V1Job.t -> option Exn) :
  let ttl := K8s.JOB_TTL (Constants.K8s constants) in
  (forall task s i,
      self_id s = Some i ->
      start_job constants cluster task s
      = (Raise (TypeError (unexpected_keyword "fs_group_change_policy")),
         add_trace s (ttl_warning ttl)))
  /\ (forall b task_id job_name commands args metadata s,
         PyInt.parse (K8s.BACKOFF_LIMIT (Constants.K8s constants)) = Some b ->
         create_job constants cluster task_id job_name commands args metadata s
         = (Raise (TypeError (unexpected_keyword "fs_group_change_policy")),
            add_trace s (ttl_warning ttl)))
  /\ (forall task s, submitted (start_job constants cluster task) s = [])
  /\ (forall task_id job_name commands args metadata s,
         submitted (create_job constants cluster task_id job_name commands args metadata) s
         = [])
  /\ (forall _ttl b task_id job_name commands args metadata i task,
         hardened (filer_job constants _ttl b task_id job_name commands args metadata) = true
         /\ hardened (texam_job constants _ttl i task) = true)
  /\ (forall c s,
         pod_posture c = true ->
         V1SecurityContext_init c s
         = (Raise (TypeError (unexpected_keyword "fs_group_change_policy")), s))
  /\ (forall c s, container_posture c = true -> V1SecurityContext_init c s = (Return c, s)).
Proof.
  intros ttl. split_and!.
  - intros task s i Hid. by rewrite start_job_run, Hid.
  - intros b task_id job_name commands args metadata s Hb.
    by rewrite create_job_run, Hb.
  - intros. apply start_job_submitted.
  - intros. apply create_job_submitted.
  - intros. split; [apply filer_job_hardened | apply texam_job_hardened].
  - intros [fs nr sp ru ape cap] s H. unfold pod_posture in H. simpl in H.
    repeat (apply andb_prop in H as [H ?]).
    repeat match goal with
           | Hb : bool_decide _ = true |- _ => apply bool_decide_eq_true_1 in Hb
           end.
    subst. destruct sp as [sp|]; [|discriminate]. destruct cap; [discriminate|].
    reflexivity.
  - intros [fs nr sp ru ape cap] s H. unfold container_posture in H. simpl in H.
    repeat (apply andb_prop in H as [H ?]).
    repeat match goal with
           | Hb : bool_decide _ = true |- _ => apply bool_decide_eq_true_1 in Hb
           end.
    subst. destruct cap as [cap|]; [|discriminate]. destruct sp; [discriminate|].
    reflexivity.
Qed.

Lemma job_construction_witness :
  start_job C0 accepting task0 fresh
  = (Raise (TypeError
              "V1SecurityContext.__init__() got an unexpected keyword argument 'fs_group_change_policy'"),
     fresh)
  /\ create_job C0 accepting "t1" "tif-t1" ["poiesis"] ["tif"] meta0 fresh
     = (Raise (TypeError
                 "V1SecurityContext.__init__() got an unexpected keyword argument 'fs_group_change_policy'"),
        fresh).
Proof.
  destruct (job_construction_raises C0 accepting) as (Hs & Hc & _).
  split.
  - exact (Hs task0 fresh "t1" eq_refl).
  - exact (Hc 1 "t1" "tif-t1" ["poiesis"] ["tif"] meta0 fresh eq_refl).
Defined.

(** C2. With a received message of status ERROR and text [m], [log] first
    logs [m], then appends [m] to the task's system logs, then writes the
    task's end time, and only then raises the fatal [RuntimeError]: the
    state it raises in holds both store writes, in that order. *)
Theorem log_error_appends_then_ends_then_raises
    (s : State) (i : string) (m : Message.t) :
  self_id s = Some i ->
  self_message s = Some m ->
  Message.status m = MessageStatus.ERROR ->
  let text := Message.message m in
  let s' := (log s).2 in
  (log s).1 = Raise (RuntimeError fatal)
  /\ effects log s = [Logger logging.ERROR (logging.Str text);
                      DbAddSystemLogs i [text];
                      DbAddLogEndTime i]
  /\ db s' = MongoDBClient.add_tes_task_log_end_time i
               (MongoDBClient.add_tes_task_system_logs i [text] (db s))
  /\ MongoDBClient.system_logs (MongoDBClient.find (db s') i) =
     MongoDBClient.system_logs (MongoDBClient.find (db s) i) ++ [text]
  /\ MongoDBClient.end_time_writes (MongoDBClient.find (db s') i) =
     S (MongoDBClient.end_time_writes (MongoDBClient.find (db s) i))
  /\ self_id s' = self_id s /\ self_message s' = self_message s
  /\ message_broker s' = message_broker s.
Proof.
  intros Hid Hm Hst text s'. subst s'.
  unfold effects. rewrite log_run, Hid, Hm, Hst. simpl.
  rewrite drop_app_length.
  repeat split; try reflexivity.
  - unfold MongoDBClient.add_tes_task_log_end_time, MongoDBClient.add_tes_task_system_logs,
      MongoDBClient.find.
    by rewrite !lookup_insert_eq.
  - unfold MongoDBClient.add_tes_task_log_end_time, MongoDBClient.add_tes_task_system_logs,
      MongoDBClient.find.
    by rewrite !lookup_insert_eq.
Qed.

Lemma log_error_witness :
  (log (received disk_full)).1 = Raise (RuntimeError fatal)
  /\ effects log (received disk_full) =
     [Logger logging.ERROR (logging.Str "disk full");
      DbAddSystemLogs "t1" ["disk full"];
      DbAddLogEndTime "t1"].
Proof.
  destruct (log_error_appends_then_ends_then_raises (received disk_full) "t1" disk_full
              eq_refl eq_refl eq_refl) as (H1 & H2 & _).
  split; [exact H1 | exact H2].
Defined.

(** C3. [execute] runs the hook, then [wait], then [log], and stops at the
    first step that raises: when the hook raises, the invocation ends with
    the hook's exception in the state the hook left, so neither [wait] nor
    [log] ran; when [wait] raises, [log] does not run. *)
Theorem execute_stops_at_first_raise (hook : M unit) (s : State) :
  (forall e s1, hook s = (Raise e, s1) -> execute hook s = (Raise e, s1))
  /\ (forall s1 e s2,
         hook s = (Return tt, s1) -> wait s1 = (Raise e, s2) ->
         execute hook s = (Raise e, s2))
  /\ (forall s1 s2,
         hook s = (Return tt, s1) -> wait s1 = (Return tt, s2) ->
         execute hook s = log s2).
Proof.
  rewrite execute_run. repeat split.
  - intros e s1 H. by rewrite H.
  - intros s1 e s2 H1 H2. by rewrite H1, H2.
  - intros s1 s2 H1 H2. by rewrite H1, H2.
Qed.

Lemma execute_rejected_witness :
  execute (start_job C0 rejecting task0) fresh = (Raise pod_context_error, fresh).
Proof.
  apply (proj1 (execute_stops_at_first_raise (start_job C0 rejecting task0) fresh)).
  rewrite start_job_run. reflexivity.
Defined.






(** ** The wait step *)

Lemma filter_yield_none (P : Event -> bool) (i : string) (l : list (option Message.t)) :
  (forall item, P (BrokerYield i item) = false) ->
  filter (fun e => P e = true) (map (BrokerYield i) l) = [].
Proof.
  intros HP. induction l as [|x l IH]; simpl; [reflexivity|].
  rewrite filter_cons, HP. simpl. destruct (decide (false = true)); [discriminate|exact IH].
Qed.

Lemma skipped_yields (i : string) (items : list (option Message.t)) :
  filter (fun e => is_message_yield e = true)
    (map (BrokerYield i) (first_message items).1) = [].
Proof.
  induction items as [|[m|] rest IH]; simpl; [reflexivity..|].
  destruct (first_message rest) as [skipped found]. exact IH.
Qed.

Lemma wait_effects (s : State) :
  effects wait s =
  match self_id s with
  | None => []
  | Some i => wait_events i (default [] (message_broker s !! i))
  end.
Proof.
  unfold effects. rewrite wait_run.
  destruct (self_id s) as [i|].
  - rewrite wait_loop_run. unfold wait_events.
    destruct (first_message _) as [skipped found]. simpl.
    rewrite <- app_assoc. by rewrite drop_app_length.
  - by rewrite drop_all.
Qed.

(** C5. When the subscription keyed by the object's id yields [n] empty
    items, then a message [m], then [rest], [wait] returns having consumed
    exactly the empty items and [m]: it records [m] as the invocation's
    message and leaves [rest] unconsumed.  When [m] has status ERROR its
    text is logged at once, and the logging step that follows logs the same
    text again.  Whatever the subscription yields, [wait] consumes at most
    one non-empty message. *)
Theorem wait_accepts_first_message
    (s : State) (i : string) (n : nat) (m : Message.t) (rest : list (option Message.t)) :
  self_id s = Some i ->
  message_broker s !! i = Some (replicate n None ++ Some m :: rest) ->
  let s' := (wait s).2 in
  let text := Logger logging.ERROR (logging.Str (Message.message m)) in
  (wait s).1 = Return tt
  /\ self_message s' = Some m
  /\ message_broker s' = <[ i := rest ]> (message_broker s)
  /\ effects wait s =
     BrokerSubscribe i :: map (BrokerYield i) (replicate n None)
     ++ BrokerYield i (Some m)
        :: (if MessageStatus.eqb (Message.status m) MessageStatus.ERROR then [text] else [])
  /\ db s' = db s /\ self_id s' = Some i
  /\ (Message.status m = MessageStatus.ERROR ->
      last (effects wait s) = Some text /\ head (effects log s') = Some text)
  /\ (forall s0, (length (filter (fun e => is_message_yield e = true) (effects wait s0)) <= 1)%nat).
Proof.
  intros Hid Hb s' text. subst s'.
  rewrite wait_effects, Hid, Hb. unfold wait_events.
  rewrite wait_run, Hid, Hb, wait_loop_run. simpl.
  rewrite first_message_skip. simpl.
  split_and!; try done.
  - by destruct n.
  - intros Hst. rewrite Hst. simpl. split.
    + rewrite app_comm_cons, last_app. reflexivity.
    + unfold effects. rewrite log_run. simpl. rewrite Hid, Hst. simpl.
      by rewrite drop_app_length.
  - intros s0. rewrite wait_effects.
    destruct (self_id s0) as [i0|]; [|simpl; lia].
    unfold wait_events.
    pose proof (skipped_yields i0 (default [] (message_broker s0 !! i0))) as Hsk.
    destruct (first_message _) as [skipped found]. simpl in Hsk.
    rewrite filter_cons. simpl.
    destruct (decide (false = true)); [discriminate|].
    rewrite filter_app, Hsk. simpl.
    destruct found as [[m0 r0]|]; [|simpl; lia].
    rewrite filter_cons. simpl.
    destruct (decide (true = true)); [|congruence].
    destruct (MessageStatus.eqb _ _); simpl; lia.
Qed.

Lemma wait_witness :
  let s := mkState (Some "t1") None {[ "t1" := [None; Some disk_full; Some done_ok] ]} ∅ [] in
  self_message (wait s).2 = Some disk_full
  /\ message_broker (wait s).2 !! "t1" = Some [Some done_ok]
  /\ effects wait s =
     [BrokerSubscribe "t1"; BrokerYield "t1" None; BrokerYield "t1" (Some disk_full);
      Logger logging.ERROR (logging.Str "disk full")]
  /\ head (effects log (wait s).2) = Some (Logger logging.ERROR (logging.Str "disk full")).
Proof.
  intros s.
  destruct (wait_accepts_first_message s "t1" 1 disk_full [Some done_ok] eq_refl
              (lookup_singleton_eq _ _))
    as (_ & H2 & H3 & H4 & _ & _ & H7 & _).
  split; [exact H2|]. split; [|split].
  - rewrite H3. apply lookup_insert_eq.
  - exact H4.
  - exact (proj2 (H7 eq_refl)).
Defined.

(** ** The task store *)

Lemma store_writes_ttl_warning (v : option string) : store_writes (ttl_warning v) = [].
Proof.
  destruct v as [v|]; simpl; [|reflexivity].
  destruct (String.eqb v ""); [reflexivity|].
  by destruct (PyInt.parse v).
Qed.

Lemma wait_keeps_store (s : State) :
  db (wait s).2 = db s /\ store_writes (effects wait s) = [].
Proof.
  split.
  - rewrite wait_run. destruct (self_id s) as [i|]; [|reflexivity].
    rewrite wait_loop_run. by destruct (first_message _).
  - rewrite wait_effects. destruct (self_id s) as [i|]; [|reflexivity].
    unfold wait_events. destruct (first_message _) as [skipped found].
    unfold store_writes.
    rewrite filter_cons. simpl. destruct (decide (false = true)); [discriminate|].
    rewrite filter_app, filter_yield_none by reflexivity. simpl.
    destruct found as [[m r]|]; [|reflexivity].
    by destruct (MessageStatus.eqb _ _).
Qed.

Lemma start_job_keeps_store (constants : Constants.t) (cluster : V1Job.t -> option Exn)
    (task : TesTask.t) (s : State) :
  db (start_job constants cluster task s).2 = db s
  /\ store_writes (effects (start_job constants cluster task) s) = [].
Proof.
  split.
  - rewrite start_job_run. by destruct (self_id s).
  - rewrite start_job_effects. destruct (self_id s); [|reflexivity].
    apply store_writes_ttl_warning.
Qed.

Lemma create_job_keeps_store (constants : Constants.t) (cluster : V1Job.t -> option Exn)
    (task_id job_name : string) (commands args : list string)
    (metadata : V1ObjectMeta.t) (s : State) :
  let run := create_job constants cluster task_id job_name commands args metadata in
  db (run s).2 = db s /\ store_writes (effects run s) = [].
Proof.
  intros run. subst run. split.
  - by rewrite create_job_run.
  - rewrite create_job_effects. apply store_writes_ttl_warning.
Qed.

Lemma log_store_cases (s : State) :
  (exists m, self_message s = Some m /\ Message.status m = MessageStatus.ERROR)
  \/ (db (log s).2 = db s /\ store_writes (effects log s) = []).
Proof.
  unfold effects. rewrite log_run.
  destruct (self_id s) as [i|]; [|right; simpl; by rewrite drop_all].
  destruct (self_message s) as [m|]; [|right; simpl; by rewrite drop_all].
  destruct (Message.status m) eqn:Hst.
  - right. simpl. by rewrite drop_app_length.
  - left. by exists m.
Qed.

(** C6. With a received message of status OK, [log] returns normally after
    one informational trace: the task store is the same afterwards and no
    store operation was called.  Across this core the store changes only in
    [log] on a message of status ERROR: [wait], [start_job] and [create_job]
    never write to it. *)
Theorem log_ok_leaves_store (s : State) (i : string) (m : Message.t) :
  self_id s = Some i ->
  self_message s = Some m ->
  Message.status m = MessageStatus.OK ->
  log s = (Return tt, add_trace s [Logger logging.INFO (logging.Str (Message.message m))])
  /\ db (log s).2 = db s
  /\ store_writes (effects log s) = []
  /\ (forall s0,
         db (log s0).2 <> db s0 \/ store_writes (effects log s0) <> [] ->
         exists m0, self_message s0 = Some m0 /\ Message.status m0 = MessageStatus.ERROR)
  /\ (forall s0, db (wait s0).2 = db s0 /\ store_writes (effects wait s0) = [])
  /\ (forall constants cluster task s0,
         db (start_job constants cluster task s0).2 = db s0
         /\ store_writes (effects (start_job constants cluster task) s0) = [])
  /\ (forall constants cluster task_id job_name commands args metadata s0,
         db (create_job constants cluster task_id job_name commands args metadata s0).2 = db s0
         /\ store_writes
              (effects (create_job constants cluster task_id job_name commands args metadata)
                 s0) = []).
Proof.
  intros Hid Hm Hst.
  assert (Hrun : log s =
    (Return tt, add_trace s [Logger logging.INFO (logging.Str (Message.message m))])).
  { by rewrite log_run, Hid, Hm, Hst. }
  split_and!.
  - exact Hrun.
  - by rewrite Hrun.
  - by rewrite (effects_add_trace _ _ _ _ Hrun).
  - intros s0 H. destruct (log_store_cases s0) as [Herr|[Hdb Hw]]; [exact Herr|].
    destruct H as [H|H]; contradiction.
  - apply wait_keeps_store.
  - apply start_job_keeps_store.
  - intros. apply create_job_keeps_store.
Qed.

Lemma log_ok_witness :
  log (received done_ok) =
  (Return tt, add_trace (received done_ok) [Logger logging.INFO (logging.Str "done")])
  /\ db (log (received done_ok)).2 = ∅.
Proof.
  destruct (log_ok_leaves_store (received done_ok) "t1" done_ok eq_refl eq_refl eq_refl)
    as (H1 & H2 & _).
  split; [exact H1 | exact H2].
Defined.

(** ** Scheduler errors *)



(** ** The identity precondition *)

(** C8. On an object whose [id] was never assigned, [wait] and [log] both
    raise the attribute error at once and leave the state as it was: no
    subscription, no item consumed, no store access, whatever the broker
    holds and whatever message the object carries. *)
Theorem unset_id_fails_at_once (s : State) :
  self_id s = None ->
  wait s = (Raise (AttributeError not_set), s)
  /\ log s = (Raise (AttributeError not_set), s)
  /\ effects wait s = [] /\ effects log s = [].
Proof.
  intros Hid. rewrite wait_run, log_run, Hid.
  split_and!; try reflexivity.
  - rewrite wait_effects. by rewrite Hid.
  - unfold effects. rewrite log_run, Hid. simpl. by rewrite drop_all.
Qed.

Lemma unset_id_witness :
  wait no_id = (Raise (AttributeError "The id of the task is not set."), no_id)
  /\ log no_id = (Raise (AttributeError "The id of the task is not set."), no_id).
Proof.
  destruct (unset_id_fails_at_once no_id eq_refl) as (H1 & H2 & _).
  split; [exact H1 | exact H2].
Defined.

(** ** Restart policy, backoff limit and names *)

(** C9. No job with a restart policy and a backoff limit is ever handed to
    the scheduler: every run of [start_job] and of [create_job] raises and
    hands nothing over.  In the keyword arguments as written, [create_job]
    passes the configured restart policy and [int(BACKOFF_LIMIT)], while
    [start_job] passes the configured restart policy and no backoff limit at
    all. *)
Theorem texam_job_without_backoff_limit
    (constants : Constants.t) (cluster : V1Job.t -> option Exn) :
  let K := Constants.K8s constants in
  (forall task s,
      submitted (start_job constants cluster task) s = []
      /\ exists e, (start_job constants cluster task s).1 = Raise e)
  /\ (forall task_id job_name commands args metadata s,
         let run := create_job constants cluster task_id job_name commands args metadata in
         submitted run s = [] /\ exists e, (run s).1 = Raise e)
  /\ (forall _ttl i task,
         backoff_limit_field (texam_job constants _ttl i task) = None
         /\ restart_policy_field (texam_job constants _ttl i task)
            = Some (K8s.RESTART_POLICY K))
  /\ (forall _ttl b task_id job_name commands args metadata,
         let j := filer_job constants _ttl b task_id job_name commands args metadata in
         backoff_limit_field j = Some b
         /\ restart_policy_field j = Some (K8s.RESTART_POLICY K)).
Proof.
  intros K. split_and!.
  - intros task s. split; [apply start_job_submitted|].
    rewrite start_job_run. destruct (self_id s); eexists; reflexivity.
  - intros task_id job_name commands args metadata s run. subst run.
    split; [apply create_job_submitted|].
    rewrite create_job_run. destruct (PyInt.parse _); eexists; reflexivity.
  - intros. by split.
  - intros. by split.
Qed.


(** ** Checks of the modelled [int] and of the posture predicate *)

Example parse_12 : PyInt.parse " 12 " = Some 12.
Proof. reflexivity. Qed.

Example parse_negative : PyInt.parse "-1_000" = Some (-1000).
Proof. reflexivity. Qed.

Example parse_empty : PyInt.parse "" = None.
Proof. reflexivity. Qed.

Example parse_text : PyInt.parse "1h" = None.
Proof. reflexivity. Qed.

Example parse_double_underscore : PyInt.parse "1__0" = None.
Proof. reflexivity. Qed.

Example parse_sign_then_space : PyInt.parse "+ 1" = None.
Proof. reflexivity. Qed.

Example parse_separator_1c : PyInt.parse (String (ascii_of_nat 28) "1") = None.
Proof. reflexivity. Qed.

Example parse_nbsp : PyInt.parse (String (ascii_of_nat 160) "1") = Some 1.
Proof. reflexivity. Qed.

Example invalid_ttl_text :
  invalid_ttl "1h" =
  Logger logging.WARNING (logging.Str "Invalid JOB_TTL 1h, falling back to no TTL (None).").
Proof. reflexivity. Qed.

Example unhardened_job :
  hardened {| V1Job.api_version := None; V1Job.kind := None;
              V1Job.metadata := None; V1Job.spec := None |} = false.
Proof. reflexivity. Qed.

Example texam_names_at_defaults :
  job_name (texam_job C0 None "t1" "{}") = Some "texam-t1"
  /\ container_names (texam_job C0 None "t1" "{}") = ["tif"].
Proof. split; reflexivity. Qed.

Example container_context_accepted :
  V1SecurityContext.unexpected
    {| V1SecurityContext.fs_group_change_policy := None;
       V1SecurityContext.run_as_non_root := None;
       V1SecurityContext.seccomp_profile := None;
       V1SecurityContext.run_as_user := Some 1000;
       V1SecurityContext.allow_privilege_escalation := Some false;
       V1SecurityContext.capabilities :=
         Some {| V1Capabilities.add := None; V1Capabilities.drop := Some ["ALL"] |} |}
  = None.
Proof. reflexivity. Qed.

(** ** Further properties of the job descriptors *)


(** X2. Under one configuration, two different ids never give the same
    task-execution job name, the same "name" or "parent" label, or the same
    filer volume claim: each of them is the configured prefix, a dash and
    the id. *)
Theorem distinct_ids_distinct_names
    (constants : Constants.t) (t1 t2 : option Z) (i1 i2 d1 d2 : string) :
  i1 <> i2 ->
  let j1 := texam_job constants t1 i1 d1 in
  let j2 := texam_job constants t2 i2 d2 in
  job_name j1 <> job_name j2
  /\ job_label "name" j1 <> job_label "name" j2
  /\ job_label "parent" j1 <> job_label "parent" j2
  /\ (forall b1 b2 n1 n2 c1 c2 a1 a2 m1 m2,
         claim_names (filer_job constants t1 b1 i1 n1 c1 a1 m1) <>
         claim_names (filer_job constants t2 b2 i2 n2 c2 a2 m2)).
Proof.
  intros Hne j1 j2.
  assert (Hinj : forall p a b : string, p +:+ "-" +:+ a = p +:+ "-" +:+ b -> a = b).
  { intros p a b H. apply (inj (String.append p)) in H. by injection H. }
  split_and!.
  - intros [= H]. by apply Hinj in H.
  - unfold job_label. cbn. intros [= H]. by apply Hinj in H.
  - unfold job_label. cbn. intros [= H]. by apply Hinj in H.
  - intros b1 b2 n1 n2 c1 c2 a1 a2 m1 m2 [= H]. by apply Hinj in H.
Qed.

Lemma distinct_ids_witness :
  job_name (texam_job C0 None "t1" "{}") <> job_name (texam_job C0 None "t2" "{}")
  /\ claim_names (filer_job C0 None 1 "t1" "tif-t1" [] [] meta0) <>
     claim_names (filer_job C0 None 1 "t2" "tif-t2" [] [] meta0).
Proof.
  assert (Hne : "t1" <> "t2") by discriminate.
  destruct (distinct_ids_distinct_names C0 None None "t1" "t2" "{}" "{}" Hne)
    as (H1 & _ & _ & H4).
  split; [exact H1 | apply H4].
Defined.

Lemma from_configmap_env (cm n : string) (opt : option bool) :
  from_configmap cm (env_from_configmap cm n opt) = true.
Proof.
  unfold from_configmap. simpl.
  by rewrite bool_decide_eq_true_2, String.eqb_refl.
Qed.

(** X3. In both job descriptors the single container is told its own image
    in [POIESIS_IMAGE], takes [LOG_LEVEL] from the core config map, and
    carries every variable of the mongo, broker, secret and config-map
    groups.  Besides those groups the task-execution container has only the
    image variable and variables read from the core config map under their
    own name, so the object-store group reaches the filer container only. *)
Theorem container_environment
    (constants : Constants.t) (_ttl : option Z) (b : Z)
    (task_id job_name : string) (commands args : list string) (metadata : V1ObjectMeta.t)
    (i task : string) :
  let K := Constants.K8s constants in
  let shared :=
    Constants.get_mongo_envs constants ++ Constants.get_message_broker_envs constants
    ++ Constants.get_secret_names constants ++ Constants.get_configmap_names constants in
  let image_var := env_value "POIESIS_IMAGE" (K8s.POIESIS_IMAGE K) in
  let told c :=
    V1Container.image c = Some (K8s.POIESIS_IMAGE K)
    /\ image_var ∈ env_of c
    /\ env_from_configmap (K8s.CONFIGMAP_NAME K) "LOG_LEVEL" None ∈ env_of c
    /\ (forall e, e ∈ shared -> e ∈ env_of c) in
  Forall (fun c =>
            told c
            /\ (forall e, e ∈ Constants.get_s3_envs constants -> e ∈ env_of c)
            /\ (forall e, e ∈ env_of c ->
                  e ∈ shared \/ e ∈ Constants.get_s3_envs constants
                  \/ e = image_var \/ from_configmap (K8s.CONFIGMAP_NAME K) e = true))
    (containers_of (filer_job constants _ttl b task_id job_name commands args metadata))
  /\ Forall (fun c =>
               told c
               /\ (forall e, e ∈ env_of c ->
                     e ∈ shared \/ e = image_var
                     \/ from_configmap (K8s.CONFIGMAP_NAME K) e = true))
       (containers_of (texam_job constants _ttl i task)).
Proof.
  intros K shared image_var told. subst told shared image_var K.
  split; apply Forall_singleton; unfold env_of; cbn.
  - split_and!; try reflexivity.
    + rewrite !elem_of_app, !elem_of_cons. tauto.
    + rewrite !elem_of_app, !elem_of_cons. tauto.
    + intros e. rewrite !elem_of_app. tauto.
    + intros e. rewrite !elem_of_app. tauto.
    + intros e He.
      repeat (apply elem_of_app in He as [He|He]);
        [rewrite !elem_of_app; tauto..|].
      apply elem_of_cons in He as [->|He]; [by right; right; left|].
      apply elem_of_cons in He as [->|He]; [|by apply elem_of_nil in He].
      do 3 right. apply from_configmap_env.
  - split_and!; try reflexivity.
    + rewrite !elem_of_app, !elem_of_cons. tauto.
    + rewrite !elem_of_app, !elem_of_cons. tauto.
    + intros e. rewrite !elem_of_app. tauto.
    + intros e He.
      repeat (apply elem_of_app in He as [He|He]);
        [rewrite !elem_of_app; tauto..|].
      apply elem_of_cons in He as [->|He]; [by right; left|].
      do 2 right.
      repeat (apply elem_of_cons in He as [->|He]; [apply from_configmap_env|]).
      by apply elem_of_nil in He.
Qed.

(** ** Further error behaviour of the submitting operations *)

(** X4. [int(BACKOFF_LIMIT)] is outside the [try]: when the configured
    backoff limit does not read as an integer, [create_job] raises the
    [ValueError] after the TTL block ran and before anything is logged at
    debug level or handed to the scheduler. *)
Theorem unreadable_backoff_limit
    (constants : Constants.t) (cluster : V1Job.t -> option Exn)
    (task_id job_name : string) (commands args : list string)
    (metadata : V1ObjectMeta.t) (s : State) :
  let K := Constants.K8s constants in
  let run := create_job constants cluster task_id job_name commands args metadata in
  PyInt.parse (K8s.BACKOFF_LIMIT K) = None ->
  run s = (Raise (ValueError (K8s.BACKOFF_LIMIT K)), add_trace s (ttl_warning (K8s.JOB_TTL K)))
  /\ submitted run s = []
  /\ effects run s = ttl_warning (K8s.JOB_TTL K).
Proof.
  intros K run Hb. subst run K.
  by rewrite create_job_run, create_job_submitted, create_job_effects, Hb.
Qed.

Lemma unreadable_backoff_witness :
  create_job (constants_of (with_backoff "many" K0)) accepting
    "t1" "tif-t1" ["poiesis"] ["tif"] meta0 fresh
  = (Raise (ValueError "many"), fresh).
Proof.
  destruct (unreadable_backoff_limit (constants_of (with_backoff "many" K0)) accepting
              "t1" "tif-t1" ["poiesis"] ["tif"] meta0 fresh eq_refl) as (H & _).
  exact H.
Defined.

(** X5. Only [ApiException] is caught around the scheduler call: when the
    scheduler client raises any other exception for a job, the block that
    closes both operations lets it through as it is, after the debug log and
    the single scheduler call, and logs nothing at error level. *)
Theorem other_exception_passes_unlogged
    (cluster : V1Job.t -> option Exn) (j : V1Job.t) (e : Exn) (s : State) :
  is_api_exception e = false ->
  cluster j = Some e ->
  submit cluster j s =
  (Raise e, add_trace s [Logger logging.DEBUG (logging.Job j); KubernetesCreateJob j])
  /\ error_logs (effects (submit cluster j) s) = []
  /\ submitted (submit cluster j) s = [j].
Proof.
  intros He Hc.
  assert (Hrun : submit cluster j s =
    (Raise e, add_trace s [Logger logging.DEBUG (logging.Job j); KubernetesCreateJob j])).
  { rewrite submit_run. unfold submit_result, submit_events. rewrite Hc. by destruct e. }
  split_and!.
  - exact Hrun.
  - by rewrite (effects_add_trace _ _ _ _ Hrun).
  - unfold submitted. by rewrite (effects_add_trace _ _ _ _ Hrun).
Qed.

Lemma other_exception_witness :
  submit failing bare_job fresh =
  (Raise unreachable,
   add_trace fresh [Logger logging.DEBUG (logging.Job bare_job); KubernetesCreateJob bare_job]).
Proof.
  exact (proj1 (other_exception_passes_unlogged failing bare_job unreachable fresh
                  eq_refl eq_refl)).
Defined.

(** X6. When no TTL is configured at all, the TTL block leaves [None] in
    [_ttl] without calling [int] and without logging, so [start_job] and
    [create_job] log nothing and call nothing before they raise. *)
Theorem absent_ttl
    (constants : Constants.t) (cluster : V1Job.t -> option Exn) :
  K8s.JOB_TTL (Constants.K8s constants) = None ->
  (forall s, job_ttl constants s = (Return None, s))
  /\ (forall task s, effects (start_job constants cluster task) s = [])
  /\ (forall task_id job_name commands args metadata s,
         effects (create_job constants cluster task_id job_name commands args metadata) s
         = []).
Proof.
  intros Hnone. split_and!.
  - intros s. by rewrite job_ttl_run, Hnone, add_trace_nil.
  - intros task s. rewrite start_job_effects, Hnone. by destruct (self_id s).
  - intros. by rewrite create_job_effects, Hnone.
Qed.

Lemma absent_ttl_witness :
  job_ttl (constants_of (with_ttl None K0)) fresh = (Return None, fresh)
  /\ effects (start_job (constants_of (with_ttl None K0)) accepting task0) fresh = [].
Proof.
  destruct (absent_ttl (constants_of (with_ttl None K0)) accepting eq_refl) as (H1 & H2 & _).
  split; [apply H1 | apply H2].
Defined.

(** ** Further properties of the wait step *)

Lemma first_message_none (n : nat) :
  first_message (replicate n None) = (replicate n None, None).
Proof. induction n as [|n IH]; simpl; [reflexivity|]. by rewrite IH. Qed.

Lemma first_message_split (items : list (option Message.t)) :
  items =
  (first_message items).1
  ++ match (first_message items).2 with
     | Some (m, rest) => Some m :: rest
     | None => []
     end.
Proof.
  induction items as [|[m|] rest IH]; simpl; [reflexivity..|].
  destruct (first_message rest) as [skipped found]. simpl in *. by rewrite <- IH.
Qed.

Lemma first_message_skipped_none (items : list (option Message.t)) :
  Forall (fun x => x = None) (first_message items).1.
Proof.
  induction items as [|[m|] rest IH]; simpl; [constructor..|].
  destruct (first_message rest) as [skipped found]. by constructor.
Qed.

Lemma yielded_app (l1 l2 : list Event) : yielded (l1 ++ l2) = yielded l1 ++ yielded l2.
Proof. apply omap_app. Qed.

Lemma yielded_map (i : string) (l : list (option Message.t)) :
  yielded (map (BrokerYield i) l) = l.
Proof.
  unfold yielded. induction l as [|x l IH]; [reflexivity|].
  cbn. f_equal. exact IH.
Qed.

Lemma last_all_none (l : list (option Message.t)) (m : Message.t) :
  Forall (fun x => x = None) l -> last l <> Some (Some m).
Proof.
  intros H Hl. apply last_Some in Hl as [l' ->].
  apply Forall_app in H as [_ H]. by inversion H.
Qed.

(** X7. When the subscription ends after empty items only (or yields
    nothing), [wait] returns normally having pulled all of them, and
    [self.message] is what it was before the call: [wait] never clears it.
    The logging step then acts on that earlier value, and does nothing at all
    when there was none. *)
Theorem wait_without_message (s : State) (i : string) (n : nat) :
  self_id s = Some i ->
  pending s i = replicate n None ->
  let s' := (wait s).2 in
  (wait s).1 = Return tt
  /\ self_message s' = self_message s
  /\ pending s' i = []
  /\ effects wait s = BrokerSubscribe i :: map (BrokerYield i) (replicate n None)
  /\ (log s').1 = (log s).1
  /\ (self_message s = None -> log s' = (Return tt, s')).
Proof.
  intros Hid Hp s'. subst s'. unfold pending in Hp.
  rewrite wait_effects, Hid, Hp. unfold wait_events.
  rewrite wait_run, Hid, Hp, wait_loop_run, first_message_none.
  rewrite !log_run. simpl. rewrite Hid.
  split_and!; try done.
  - unfold pending. simpl. destruct n; simpl.
    + by rewrite Hp.
    + by rewrite lookup_insert_eq.
  - by rewrite app_nil_r.
  - by destruct (self_message s) as [m|]; [destruct (Message.status m)|].
  - by intros ->.
Qed.

Lemma wait_without_message_witness :
  (wait (listening [None; None])).1 = Return tt
  /\ self_message (wait (listening [None; None])).2 = None
  /\ effects wait (listening [None; None]) =
     [BrokerSubscribe "t1"; BrokerYield "t1" None; BrokerYield "t1" None]
  /\ (log (wait (listening [None; None])).2).1 = Return tt.
Proof.
  destruct (wait_without_message (listening [None; None]) "t1" 2 eq_refl
              (f_equal (default []) (lookup_singleton_eq _ _)))
    as (H1 & H2 & _ & H4 & H5 & _).
  split_and!; [exact H1 | exact H2 | exact H4 | exact H5].
Defined.

(** X8. When the subscription to the object's channel yields the items
    [items] and then ends, or yields a message among them: what [wait]
    pulled followed by what it left is [items], so it consumes a prefix of
    its own channel, and it consumes nothing of any other channel.  The
    message it records is the last item it pulled when that item is a
    message, and the earlier value otherwise; the id and the task store are
    unchanged. *)
Theorem wait_consumes_a_prefix
    (s : State) (i : string) (items : list (option Message.t)) :
  self_id s = Some i ->
  pending s i = items ->
  let s' := (wait s).2 in
  let pulled := yielded (effects wait s) in
  items = pulled ++ pending s' i
  /\ (forall k, k <> i -> message_broker s' !! k = message_broker s !! k)
  /\ self_message s' =
     match last pulled with
     | Some (Some m) => Some m
     | _ => self_message s
     end
  /\ self_id s' = self_id s /\ db s' = db s.
Proof.
  intros Hid Hitems s' pulled. subst s' pulled items.
  rewrite wait_effects, Hid. unfold wait_events, pending.
  rewrite wait_run, Hid, wait_loop_run.
  pose proof (first_message_split (default [] (message_broker s !! i))) as Hsplit.
  pose proof (first_message_skipped_none (default [] (message_broker s !! i))) as Hnone.
  destruct (first_message (default [] (message_broker s !! i))) as [skipped found].
  simpl in Hsplit, Hnone. cbn [fst snd self_message message_broker self_id db].
  change (BrokerSubscribe i :: ?l) with ([BrokerSubscribe i] ++ l).
  rewrite !yielded_app, yielded_map. cbn [yielded omap app].
  split_and!; try done.
  - destruct (default [] (message_broker s !! i)) as [|x items] eqn:Hitems.
    + destruct skipped; [|discriminate]. destruct found as [[m r]|]; [discriminate|].
      simpl. by rewrite Hitems.
    + rewrite lookup_insert_eq. simpl. rewrite Hsplit.
      destruct found as [[m r]|]; simpl.
      * destruct (MessageStatus.eqb _ _); simpl; by rewrite <- app_assoc.
      * by rewrite !app_nil_r.
  - intros k Hk. destruct (default [] (message_broker s !! i)); [reflexivity|].
    by rewrite lookup_insert_ne.
  - destruct found as [[m r]|].
    + destruct (MessageStatus.eqb _ _); simpl; by rewrite last_snoc.
    + simpl. rewrite app_nil_r.
      destruct (last skipped) as [[m|]|] eqn:Hl; try reflexivity.
      by apply last_all_none in Hl.
Qed.

Lemma wait_prefix_witness :
  let s := listening [None; Some done_ok; Some disk_full] in
  [None; Some done_ok; Some disk_full] = yielded (effects wait s) ++ pending (wait s).2 "t1"
  /\ self_message (wait s).2 = Some done_ok.
Proof.
  intros s.
  destruct (wait_consumes_a_prefix s "t1" [None; Some done_ok; Some disk_full] eq_refl
              eq_refl) as (H1 & _ & H3 & _).
  split; [exact H1 | exact H3].
Defined.

(** ** Further properties of the whole invocation *)

Lemma broker_events_ttl_warning (v : option string) : broker_events (ttl_warning v) = [].
Proof.
  destruct v as [v|]; simpl; [|reflexivity].
  destruct (String.eqb v ""); [reflexivity|]. by destruct (PyInt.parse v).
Qed.

(** X9. A whole invocation whose hook returns, leaving an object with an id
    whose channel yields a message [m] after [n] empty items, records [m]
    and ends by the status of [m].  On OK it returns after one
    informational log, with the task store as the hook left it.  On ERROR
    it raises the fatal [RuntimeError] after the text of [m] was logged at
    error level twice in a row (by [wait], then by [log]) and the two store
    writes were made. *)
Theorem execute_after_hook
    (hook : M unit) (s s1 : State) (i : string) (n : nat) (m : Message.t)
    (rest : list (option Message.t)) :
  hook s = (Return tt, s1) ->
  self_id s1 = Some i ->
  message_broker s1 !! i = Some (replicate n None ++ Some m :: rest) ->
  let s' := (execute hook s).2 in
  let pulled :=
    BrokerSubscribe i :: map (BrokerYield i) (replicate n None) ++ [BrokerYield i (Some m)] in
  let text := Message.message m in
  self_message s' = Some m
  /\ message_broker s' = <[ i := rest ]> (message_broker s1)
  /\ match Message.status m with
     | MessageStatus.OK =>
         (execute hook s).1 = Return tt
         /\ trace s' = trace s1 ++ pulled ++ [Logger logging.INFO (logging.Str text)]
         /\ db s' = db s1
     | MessageStatus.ERROR =>
         (execute hook s).1 = Raise (RuntimeError fatal)
         /\ trace s' =
            trace s1 ++ pulled
            ++ [Logger logging.ERROR (logging.Str text);
                Logger logging.ERROR (logging.Str text);
                DbAddSystemLogs i [text]; DbAddLogEndTime i]
         /\ db s' =
            MongoDBClient.add_tes_task_log_end_time i
              (MongoDBClient.add_tes_task_system_logs i [text] (db s1))
     end.
Proof.
  intros Hh Hid Hb s' pulled text. subst s' pulled text.
  rewrite execute_run, Hh, wait_run, Hid. simpl. rewrite Hb. simpl.
  rewrite wait_loop_run, first_message_skip, log_run. simpl. rewrite Hid.
  destruct (Message.status m); simpl.
  - split_and!; try reflexivity.
    + by destruct n.
    + by rewrite <- !app_assoc.
  - split_and!; try reflexivity.
    + by destruct n.
    + by rewrite <- !app_assoc.
Qed.

Lemma execute_after_hook_witness :
  let run := execute (submit accepting bare_job) in
  (run (listening [None; Some disk_full])).1 = Raise (RuntimeError fatal)
  /\ trace (run (listening [None; Some disk_full])).2 =
     [Logger logging.DEBUG (logging.Job bare_job); KubernetesCreateJob bare_job;
      BrokerSubscribe "t1"; BrokerYield "t1" None; BrokerYield "t1" (Some disk_full);
      Logger logging.ERROR (logging.Str "disk full");
      Logger logging.ERROR (logging.Str "disk full");
      DbAddSystemLogs "t1" ["disk full"]; DbAddLogEndTime "t1"].
Proof.
  intros run.
  destruct (execute_after_hook (submit accepting bare_job) (listening [None; Some disk_full])
              (add_trace (listening [None; Some disk_full])
                 [Logger logging.DEBUG (logging.Job bare_job); KubernetesCreateJob bare_job])
              "t1" 1 disk_full [] eq_refl eq_refl (lookup_singleton_eq _ _))
    as (_ & _ & H1 & H2 & _).
  split; [exact H1 | exact H2].
Defined.

(** X10. A whole invocation of the task-execution variant never gets past
    [start_job]: it ends as [start_job] does, with the [TypeError] of the
    pod-level context when the object has an id and with Python's attribute
    error otherwise.  Whatever the scheduler would answer and whatever the
    broker holds, nothing is handed to the scheduler, nothing is subscribed
    to or pulled, and the store, the channels and the recorded message are
    unchanged. *)
Theorem execute_texam_raises
    (constants : Constants.t) (cluster : V1Job.t -> option Exn) (task : TesTask.t)
    (s : State) :
  let run := execute (start_job constants cluster task) in
  run s = start_job constants cluster task s
  /\ (run s).1 =
     match self_id s with
     | Some _ => Raise (TypeError (unexpected_keyword "fs_group_change_policy"))
     | None => Raise (AttributeError "'TorcTexamExecution' object has no attribute 'id'")
     end
  /\ submitted run s = []
  /\ broker_events (effects run s) = []
  /\ store_writes (effects run s) = []
  /\ message_broker (run s).2 = message_broker s
  /\ self_message (run s).2 = self_message s
  /\ db (run s).2 = db s.
Proof.
  intros run. subst run.
  assert (Hrun : execute (start_job constants cluster task) s
                 = start_job constants cluster task s).
  { rewrite execute_run, start_job_run. by destruct (self_id s). }
  unfold submitted, effects. rewrite Hrun.
  fold (effects (start_job constants cluster task) s).
  fold (submitted (start_job constants cluster task) s).
  rewrite start_job_submitted, start_job_effects, start_job_run.
  destruct (self_id s); split_and!; try reflexivity.
  - apply broker_events_ttl_warning.
  - apply store_writes_ttl_warning.
Qed.

(** X12. Whatever the scheduler answers, [start_job] and [create_job] call
    it at most once, never subscribe to the broker, and leave the object's
    id and message and the broker's channels as they were. *)
Theorem submission_touches_only_the_scheduler
    (constants : Constants.t) (cluster : V1Job.t -> option Exn) :
  (forall task s,
      let run := start_job constants cluster task in
      (length (submitted run s) <= 1)%nat
      /\ broker_events (effects run s) = []
      /\ self_id (run s).2 = self_id s
      /\ self_message (run s).2 = self_message s
      /\ message_broker (run s).2 = message_broker s)
  /\ (forall task_id job_name commands args metadata s,
         let run := create_job constants cluster task_id job_name commands args metadata in
         (length (submitted run s) <= 1)%nat
         /\ broker_events (effects run s) = []
         /\ self_id (run s).2 = self_id s
         /\ self_message (run s).2 = self_message s
         /\ message_broker (run s).2 = message_broker s).
Proof.
  split.
  - intros task s run. subst run.
    rewrite start_job_submitted, start_job_effects, start_job_run.
    destruct (self_id s) eqn:Hid; simpl; split_and!; try done; try lia.
    apply broker_events_ttl_warning.
  - intros task_id job_name commands args metadata s run. subst run.
    rewrite create_job_submitted, create_job_effects, create_job_run.
    simpl. split_and!; try done; try lia.
    apply broker_events_ttl_warning.
Qed.
